(** * of.flow-manager: the flow-table management NApp (kytos/of.flow-manager/main.py)

    A shallow embedding of [Main] and [FlowManager].  Python objects that the
    code handles dynamically (the keys and values of [self.flows], the loop
    variable of [for flow in self.flows]) are modelled by a small universe of
    run-time values, so that attribute and method lookups fail where Python's
    do.  The two instance attributes that the code reads and writes
    ([self.flows], [self.controller.buffers.msg_out]) and the controller's
    switch table form the state; every method is a computation in a
    state-and-exception monad, in which a raised exception stops the method
    and keeps the state changes made so far. *)

From stdpp Require Import base option list strings gmap fin_maps.

Set Default Proof Using "Type".
Set Warnings "-register-all".

(** ** Collaborators imported by main.py *)

(** A datapath identifier: the key of [controller.switches] and of
    [FlowManager.flows]. *)
Abbreviation dpid := string.

(** pyof.v0x01.controller2switch.common.StatsTypes *)
Inductive StatsTypes :=
  | OFPST_DESC | OFPST_FLOW | OFPST_AGGREGATE | OFPST_TABLE
  | OFPST_PORT | OFPST_QUEUE | OFPST_VENDOR.

#[global] Instance StatsTypes_eq_dec : EqDecision StatsTypes.
Proof. solve_decision. Defined.

(** pyof.v0x01.controller2switch.flow_mod.FlowModCommand *)
Inductive FlowModCommand :=
  | OFPFC_ADD | OFPFC_MODIFY | OFPFC_MODIFY_STRICT
  | OFPFC_DELETE | OFPFC_DELETE_STRICT.

#[global] Instance FlowModCommand_eq_dec : EqDecision FlowModCommand.
Proof. solve_decision. Defined.

(** pyof.v0x01.common.flow_match.Match: the constrained header fields;
    [Match()] constrains none of them. *)
Definition Match := list (string * N).
Definition Match_new : Match := [].

(** Modelled from the spec: kyco.core.flow.Flow is imported, not defined, by
    main.py.  The attributes are those of the spec's data model. *)
Record Flow := mkFlow {
  id : string;
  flow_match : Match;
  priority : N;
  actions : list string;
  idle_timeout : N;
  hard_timeout : N;
  cookie : N
}.

(** One record of the body of a flow-statistics reply. *)
Record FlowStats := mkFlowStats {
  fs_flow : Flow;
  packet_count : N;
  byte_count : N
}.

(** The flow-modification message built by [Flow.as_flow_mod]. *)
Record FlowMod := mkFlowMod {
  command : FlowModCommand;
  fm_match : Match;
  fm_priority : N;
  fm_actions : list string;
  fm_idle_timeout : N;
  fm_hard_timeout : N;
  fm_cookie : N
}.

(** Modelled from the spec: [Flow.as_flow_mod(command)] is deterministic and
    carries the flow's fields and the given command. *)
Definition as_flow_mod (f : Flow) (c : FlowModCommand) : FlowMod :=
  {| command := c; fm_match := flow_match f; fm_priority := priority f;
     fm_actions := actions f; fm_idle_timeout := idle_timeout f;
     fm_hard_timeout := hard_timeout f; fm_cookie := cookie f |}.

(** Modelled from the spec: [Flow.from_flow_stats(flow_stat)] decodes any
    record of a reply. *)
Definition from_flow_stats (s : FlowStats) : Flow := fs_flow s.

(** [StatsRequest()] followed by the two attribute assignments of
    [dump_flows]. *)
Record StatsRequest := mkStatsRequest {
  sr_body_type : option StatsTypes;
  sr_match : option Match
}.
Definition StatsRequest_new : StatsRequest :=
  {| sr_body_type := None; sr_match := None |}.
Definition set_body_type (t : StatsTypes) (r : StatsRequest) : StatsRequest :=
  {| sr_body_type := Some t; sr_match := sr_match r |}.
Definition set_match (m : Match) (r : StatsRequest) : StatsRequest :=
  {| sr_body_type := sr_body_type r; sr_match := Some m |}.

(** The statistics reply carried by an inbound event: [msg.body_type.value]
    and [msg.body]. *)
Record StatsReply := mkStatsReply {
  body_type : StatsTypes;
  body : list FlowStats
}.

Definition Connection := N.

Record Switch := mkSwitch {
  connection : Connection
}.

Inductive Message :=
  | MsgFlowMod (m : FlowMod)
  | MsgStatsRequest (r : StatsRequest).

(** An outbound [KycoEvent(name=..., content={'destination': ...,
    'message': ...})]. *)
Record KycoEvent := mkKycoEvent {
  name : string;
  destination : Connection;
  message : Message
}.

(** An inbound event: [event.content['message']] and
    [event.content['switch']]. *)
Record StatsReplyEvent := mkStatsReplyEvent {
  content_message : StatsReply;
  content_switch : dpid
}.

(** ** Run-time values *)

Inductive value :=
  | VNone
  | VStr (s : string)
  | VFlow (f : Flow)
  | VList (l : list value).

Inductive exn := KeyError | AttributeError | UnknownSwitchError | MalformedFlowError.

#[global] Instance exn_eq_dec : EqDecision exn.
Proof. solve_decision. Defined.

(** ** State and the method monad *)

Record State := mkState {
  switches : gmap dpid Switch;      (* self.controller.switches *)
  msg_out : list KycoEvent;         (* self.controller.buffers.msg_out *)
  flows : gmap dpid value           (* FlowManager.flows *)
}.

Definition with_msg_out (q : list KycoEvent) (st : State) : State :=
  {| switches := switches st; msg_out := q; flows := flows st |}.
Definition with_flows (m : gmap dpid value) (st : State) : State :=
  {| switches := switches st; msg_out := msg_out st; flows := m |}.

Inductive result (A : Type) :=
  | Ok (a : A)
  | Raise (e : exn).
Arguments Ok {A} a.
Arguments Raise {A} e.

Definition M (A : Type) : Type := State → result A * State.

Definition ret {A} (a : A) : M A := λ st, (Ok a, st).
Definition raise {A} (e : exn) : M A := λ st, (Raise e, st).
Definition bind {A B} (m : M A) (k : A → M B) : M B :=
  λ st, match m st with
        | (Ok a, st') => k a st'
        | (Raise e, st') => (Raise e, st')
        end.

Declare Scope py_scope.
Delimit Scope py_scope with py.
Notation "x <- m ;; k" := (bind m (λ x, k))
  (at level 100, m at next level, right associativity) : py_scope.
Notation "m ;;; k" := (bind m (λ _, k))
  (at level 100, right associativity) : py_scope.
Open Scope py_scope.

(** [for x in xs: body(x)] *)
Fixpoint for_in {A} (xs : list A) (body : A → M unit) : M unit :=
  match xs with
  | [] => ret tt
  | x :: xs' => body x ;;; for_in xs' body
  end.

(** A [for] loop that updates a local variable. *)
Fixpoint for_acc {A B} (xs : list A) (acc : B) (body : B → A → M B) : M B :=
  match xs with
  | [] => ret acc
  | x :: xs' => acc' <- body acc x ;; for_acc xs' acc' body
  end.

(** Iterating a dict yields its keys, each once.  The order is the one the
    dict has; the model takes the order of [map_to_list]. *)
Definition dict_keys {V} (d : gmap dpid V) : list dpid := (map_to_list d).*1.

(** ** Operations on values *)

(** [v.as_flow_mod(c)]: only a [Flow] has the method. *)
Definition call_as_flow_mod (v : value) (c : FlowModCommand) : M FlowMod :=
  match v with
  | VFlow f => ret (as_flow_mod f c)
  | _ => raise AttributeError
  end.

(** [v.id]: only a [Flow] has the attribute. *)
Definition attr_id (v : value) : M string :=
  match v with
  | VFlow f => ret (id f)
  | _ => raise AttributeError
  end.

(** [v is None] *)
Definition is_None (v : value) : bool :=
  match v with VNone => true | _ => false end.

(** [v.append(x)]: only a list has the method. *)
Definition call_append (v x : value) : M value :=
  match v with
  | VList l => ret (VList (l ++ [x]))
  | _ => raise AttributeError
  end.

(** ** The controller *)

(** Modelled from the spec: [controller.get_switch_by_dpid(dpid)] belongs to
    the controller, which main.py only calls.  The lookup fails with
    UnknownSwitchError when the dpid does not resolve. *)
Definition get_switch_by_dpid (d : dpid) : M Switch :=
  λ st, match switches st !! d with
        | Some sw => (Ok sw, st)
        | None => (Raise UnknownSwitchError, st)
        end.

(** [self.controller.buffers.msg_out.put(event_out)] *)
Definition msg_out_put (ev : KycoEvent) : M unit :=
  λ st, (Ok tt, with_msg_out (msg_out st ++ [ev]) st).

(** ** class FlowManager *)

Module FlowManager.

(** [self.flows[dpid]] *)
Definition flows_getitem (d : dpid) : M value :=
  λ st, match flows st !! d with
        | Some v => (Ok v, st)
        | None => (Raise KeyError, st)
        end.

(** [self.flows[dpid] = v] *)
Definition flows_setitem (d : dpid) (v : value) : M unit :=
  λ st, (Ok tt, with_flows (<[d := v]> (flows st)) st).

(** The loop variable of [for flow in self.flows] ranges over the keys of
    the dict. *)
Definition flows_iter : M (list value) :=
  λ st, (Ok (VStr <$> dict_keys (flows st)), st).

Definition flow_mod_event (sw : Switch) (flow_mod : FlowMod) : KycoEvent :=
  {| name := "kytos/of.flow-manager.messages.out.ofpt_flow_mod";
     destination := connection sw;
     message := MsgFlowMod flow_mod |}.

Definition stats_request_event (sw : Switch) (r : StatsRequest) : KycoEvent :=
  {| name := "kytos/of.flow-manager.messages.out.ofpt_stats_request";
     destination := connection sw;
     message := MsgStatsRequest r |}.

Definition install_new_flow (flow : Flow) (d : dpid) : M unit :=
  switch <- get_switch_by_dpid d ;;
  let flow_mod := as_flow_mod flow OFPFC_ADD in
  let event_out := flow_mod_event switch flow_mod in
  msg_out_put event_out.

Definition dump_flows (d : dpid) : M unit :=
  switch <- get_switch_by_dpid d ;;
  let stats_request := StatsRequest_new in
  let stats_request := set_body_type OFPST_FLOW stats_request in
  let stats_request := set_match Match_new stats_request in
  let event_out := stats_request_event switch stats_request in
  msg_out_put event_out.

Definition clear_flows (d : dpid) : M unit :=
  switch <- get_switch_by_dpid d ;;
  it <- flows_iter ;;
  for_in it (λ flow,
    flow_mod <- call_as_flow_mod flow OFPFC_DELETE ;;
    let event_out := flow_mod_event switch flow_mod in
    msg_out_put event_out).

Definition delete_flow (flow_id : string) (d : dpid) : M unit :=
  switch <- get_switch_by_dpid d ;;
  it <- flows_iter ;;
  for_in it (λ flow,
    fid <- attr_id flow ;;
    if decide (fid = flow_id) then
      flow_mod <- call_as_flow_mod flow OFPFC_DELETE ;;
      let event_out := flow_mod_event switch flow_mod in
      msg_out_put event_out
    else ret tt).

(** [_get_flows]: the list is built by appending one decoded flow per
    record. *)
Definition _get_flows (flow_stats : list FlowStats) : list Flow :=
  foldl (λ flows flow_stat, flows ++ [from_flow_stats flow_stat]) [] flow_stats.

Definition handle_flow_stats_reply (event : StatsReplyEvent) : M unit :=
  let msg := content_message event in
  if decide (body_type msg = OFPST_FLOW) then
    let flow_stats := body msg in
    let flows := _get_flows flow_stats in
    let switch_dpid := content_switch event in
    cur <- flows_getitem switch_dpid ;;
    (if is_None cur then flows_setitem switch_dpid (VList []) else ret tt) ;;;
    cur <- flows_getitem switch_dpid ;;
    cur <- call_append cur (VList (VFlow <$> flows)) ;;
    flows_setitem switch_dpid cur
  else ret tt.

End FlowManager.

(** ** class Main *)

Module Main.

(** The loop variable of [for switch_dpid in self.controller.switches]. *)
Definition switches_iter : M (list dpid) :=
  λ st, (Ok (dict_keys (switches st)), st).

(** The loop variable of [for switch_dpid in self.flow_manager.flows]. *)
Definition flows_keys : M (list dpid) :=
  λ st, (Ok (dict_keys (flows st)), st).

(** [execute]: one poll cycle. *)
Definition execute : M unit :=
  it <- switches_iter ;;
  for_in it (λ d, FlowManager.dump_flows d).

Definition retrieve_flows (d : option dpid) : M (list value) :=
  let flows : list value := [] in
  match d with
  | Some d =>
      v <- FlowManager.flows_getitem d ;;
      ret (flows ++ [v])
  | None =>
      it <- flows_keys ;;
      for_acc it flows (λ flows switch_dpid,
        v <- FlowManager.flows_getitem switch_dpid ;;
        ret (flows ++ [v]))
  end.

Section Request.
(** The body of the HTTP request ([request.get_json()]) and
    [Flow.from_json], which belong to flask and to the controller's
    library: the parser is a parameter, and yields no flow for a
    malformed description. *)
Context {Json : Type} (from_json : Json → option Flow).

Definition Flow_from_json (json_content : Json) : M Flow :=
  match from_json json_content with
  | Some f => ret f
  | None => raise MalformedFlowError
  end.

Definition insert_flow (json_content : Json) (d : option dpid) : M unit :=
  received_flow <- Flow_from_json json_content ;;
  match d with
  | Some d => FlowManager.install_new_flow received_flow d
  | None =>
      it <- switches_iter ;;
      for_in it (λ switch_dpid,
        FlowManager.install_new_flow received_flow switch_dpid)
  end.
End Request.

Definition clear_flows (d : option dpid) : M unit :=
  match d with
  | Some d => FlowManager.clear_flows d
  | None =>
      it <- switches_iter ;;
      for_in it (λ switch_dpid, FlowManager.clear_flows switch_dpid)
  end.

Definition delete_flow (flow_id : string) (d : option dpid) : M unit :=
  match d with
  | Some d => FlowManager.delete_flow flow_id d
  | None =>
      it <- switches_iter ;;
      for_in it (λ switch_dpid, FlowManager.delete_flow flow_id switch_dpid)
  end.

End Main.

(** The request for the whole flow table: type OFPST_FLOW, empty match. *)
Definition flow_stats_request (sw : Switch) : KycoEvent :=
  {| name := "kytos/of.flow-manager.messages.out.ofpt_stats_request";
     destination := connection sw;
     message := MsgStatsRequest
                  {| sr_body_type := Some OFPST_FLOW; sr_match := Some [] |} |}.

(** [m] called [n] times in a row. *)
Fixpoint call_times (n : nat) (m : M unit) : M unit :=
  match n with
  | O => ret tt
  | S n' => m ;;; call_times n' m
  end.

(** The two fan-out operations of [Main] that read the cache, and the
    [FlowManager] method each of them calls per switch. *)
Inductive fan_out_op :=
  | ClearOp
  | DeleteOp (flow_id : string).

Definition per_switch (op : fan_out_op) : dpid → M unit :=
  match op with
  | ClearOp => FlowManager.clear_flows
  | DeleteOp flow_id => FlowManager.delete_flow flow_id
  end.

Definition fan_out (op : fan_out_op) : M unit :=
  match op with
  | ClearOp => Main.clear_flows None
  | DeleteOp flow_id => Main.delete_flow flow_id None
  end.

(** ** The application as a whole *)

(** [FlowManager.__init__]: [self.flows = {}]. *)
Definition FlowManager_init (st : State) : State := with_flows ∅ st.

(** The element that [handle_flow_stats_reply] appends for an event: the
    list returned by [_get_flows]. *)
Definition decoded_entry (event : StatsReplyEvent) : value :=
  VList (VFlow <$> FlowManager._get_flows (body (content_message event))).

(** The entry points: the methods of [Main] that the controller or a REST
    client calls, the methods of [FlowManager], and the delivery of an
    inbound statistics reply. *)
Inductive call (Json : Type) :=
  | Execute
  | RetrieveFlows (d : option dpid)
  | InsertFlow (json_content : Json) (d : option dpid)
  | ClearFlows (d : option dpid)
  | DeleteFlow (flow_id : string) (d : option dpid)
  | InstallNewFlow (flow : Flow) (d : dpid)
  | DumpFlows (d : dpid)
  | StatsReplyIn (event : StatsReplyEvent).
Arguments Execute {Json}.
Arguments RetrieveFlows {Json} d.
Arguments InsertFlow {Json} json_content d.
Arguments ClearFlows {Json} d.
Arguments DeleteFlow {Json} flow_id d.
Arguments InstallNewFlow {Json} flow d.
Arguments DumpFlows {Json} d.
Arguments StatsReplyIn {Json} event.

(** The state a call leaves, whether it returns or raises. *)
Definition exec {Json} (from_json : Json → option Flow) (c : call Json)
    (st : State) : State :=
  match c with
  | Execute => (Main.execute st).2
  | RetrieveFlows d => (Main.retrieve_flows d st).2
  | InsertFlow json_content d => (Main.insert_flow from_json json_content d st).2
  | ClearFlows d => (Main.clear_flows d st).2
  | DeleteFlow flow_id d => (Main.delete_flow flow_id d st).2
  | InstallNewFlow flow d => (FlowManager.install_new_flow flow d st).2
  | DumpFlows d => (FlowManager.dump_flows d st).2
  | StatsReplyIn event => (FlowManager.handle_flow_stats_reply event st).2
  end.

Definition exec_all {Json} (from_json : Json → option Flow)
    (cs : list (call Json)) (st : State) : State :=
  foldl (λ st c, exec from_json c st) st cs.

(** The two kinds of message the application builds: an ADD flow-mod and a
    request for the whole flow table. *)
Definition add_or_flow_request (ev : KycoEvent) : bool :=
  match message ev with
  | MsgFlowMod m => bool_decide (command m = OFPFC_ADD)
  | MsgStatsRequest r =>
      bool_decide (sr_body_type r = Some OFPST_FLOW) && bool_decide (sr_match r = Some [])
  end.

(** [ev] is addressed to the connection of a switch of the table. *)
Definition to_known_switch (st : State) (ev : KycoEvent) : Prop :=
  ∃ d sw, switches st !! d = Some sw ∧ destination ev = connection sw.

(** [st'] comes from [st] by enqueueing messages: the switch table and the
    keys of the store are the same, and the queue of [st] is extended at
    its tail by ADD commands and flow-table requests to known switches. *)
Definition grows (st st' : State) : Prop :=
  switches st' = switches st ∧
  dom (flows st') = dom (flows st) ∧
  ∃ new, msg_out st' = msg_out st ++ new ∧
         Forall (λ ev, add_or_flow_request ev = true ∧ to_known_switch st ev) new.

(** ** Sample data *)

Definition f1 : Flow := mkFlow "F1" [("in_port", 1%N)] 10%N ["output:2"] 0%N 0%N 1%N.
Definition f2 : Flow := mkFlow "F2" [("dl_vlan", 7%N)] 20%N ["output:3"] 5%N 0%N 2%N.
Definition f7 : Flow := mkFlow "F7" [] 30%N ["drop"] 0%N 60%N 7%N.
Definition sw1 : Switch := mkSwitch 101%N.
Definition sw2 : Switch := mkSwitch 102%N.

Definition st_two_switches : State :=
  {| switches := <["D1" := sw1]> (<["D2" := sw2]> ∅);
     msg_out := [];
     flows := ∅ |}.

Definition st_polled : State :=
  with_flows (<["D1" := VList [VFlow f7; VFlow f1]]> ∅) st_two_switches.

Definition reply_f1_f2 : StatsReplyEvent :=
  mkStatsReplyEvent
    (mkStatsReply OFPST_FLOW [mkFlowStats f1 4%N 256%N; mkFlowStats f2 0%N 0%N])
    "D1".

Definition reply_port : StatsReplyEvent :=
  mkStatsReplyEvent (mkStatsReply OFPST_PORT []) "D1".

(** A store in which another component left [None] for D2. *)
Definition st_none_entry : State :=
  with_flows (<["D2" := VNone]> (flows st_polled)) st_polled.

Definition reply_f2_d2 : StatsReplyEvent :=
  mkStatsReplyEvent (mkStatsReply OFPST_FLOW [mkFlowStats f2 1%N 64%N]) "D2".

Definition reply_f7 : StatsReplyEvent :=
  mkStatsReplyEvent (mkStatsReply OFPST_FLOW [mkFlowStats f7 0%N 0%N]) "D1".

(** * Properties *)

(** ** The monad and the loops *)

Lemma with_msg_out_id st : with_msg_out (msg_out st) st = st.
Proof. by destruct st. Qed.

Lemma with_msg_out_twice q q' st :
  with_msg_out q (with_msg_out q' st) = with_msg_out q st.
Proof. done. Qed.

Lemma bind_ok {A B} (m : M A) (k : A → M B) st a st' :
  m st = (Ok a, st') → bind m k st = k a st'.
Proof. unfold bind. by intros ->. Qed.

Lemma bind_raise {A B} (m : M A) (k : A → M B) st e st' :
  m st = (Raise e, st') → bind m k st = (Raise e, st').
Proof. unfold bind. by intros ->. Qed.

Lemma for_in_app {A} (xs ys : list A) body st st' :
  for_in xs body st = (Ok tt, st') →
  for_in (xs ++ ys) body st = for_in ys body st'.
Proof.
  revert st. induction xs as [|x xs IH]; intros st; simpl.
  - unfold ret. congruence.
  - unfold bind. destruct (body x st) as [[[]|e] st1]; [|done].
    apply IH.
Qed.

(** A loop stops at the first iteration that raises: the iterations after
    it are not run. *)
Lemma for_in_raise {A} (pre : list A) x rest body st st1 e st2 :
  for_in pre body st = (Ok tt, st1) →
  body x st1 = (Raise e, st2) →
  for_in (pre ++ x :: rest) body st = (Raise e, st2).
Proof.
  intros Hpre Hx. rewrite (for_in_app _ _ _ _ _ Hpre). simpl.
  by apply bind_raise.
Qed.

Lemma get_flows_map flow_stats :
  FlowManager._get_flows flow_stats = from_flow_stats <$> flow_stats.
Proof.
  unfold FlowManager._get_flows.
  enough (H : ∀ acc, foldl (λ flows s, flows ++ [from_flow_stats s]) acc flow_stats
                     = acc ++ (from_flow_stats <$> flow_stats)) by apply (H []).
  induction flow_stats as [|s l IH]; intros acc; simpl.
  - by rewrite app_nil_r.
  - rewrite IH. by rewrite <- app_assoc.
Qed.

(** ** The controller's switch table *)

Lemma get_switch_known d sw st :
  switches st !! d = Some sw → get_switch_by_dpid d st = (Ok sw, st).
Proof. unfold get_switch_by_dpid. by intros ->. Qed.

Lemma get_switch_unknown d st :
  switches st !! d = None → get_switch_by_dpid d st = (Raise UnknownSwitchError, st).
Proof. unfold get_switch_by_dpid. by intros ->. Qed.

(** A loop over switches whose body emits one event per switch emits them in
    the order of the iteration. *)
Lemma for_in_emit (g : Switch → KycoEvent) (body : dpid → M unit) :
  (∀ d sw st, switches st !! d = Some sw →
     body d st = (Ok tt, with_msg_out (msg_out st ++ [g sw]) st)) →
  ∀ (l : list (dpid * Switch)) st,
    Forall (λ p, switches st !! p.1 = Some p.2) l →
    for_in l.*1 body st
    = (Ok tt, with_msg_out (msg_out st ++ (g ∘ snd <$> l)) st).
Proof.
  intros Hbody l. induction l as [|[d sw] l IH]; intros st Hl; simpl.
  - by rewrite app_nil_r, with_msg_out_id.
  - apply Forall_cons in Hl as [Hd Hl]. simpl in Hd.
    rewrite (bind_ok _ _ _ tt _ (Hbody d sw st Hd)).
    rewrite IH by done. simpl. by rewrite <- app_assoc.
Qed.

Lemma switches_resolve st :
  Forall (λ p, switches st !! p.1 = Some p.2) (map_to_list (switches st)).
Proof. apply Forall_forall. intros [d sw]. apply elem_of_map_to_list. Qed.

(** ** FlowManager.handle_flow_stats_reply *)

(** A reply for a switch whose entry is [None] starts the entry afresh. *)
Lemma handle_flow_stats_reply_none event st :
  body_type (content_message event) = OFPST_FLOW →
  flows st !! content_switch event = Some VNone →
  FlowManager.handle_flow_stats_reply event st
  = (Ok tt,
     with_flows
       (<[content_switch event :=
            VList [VList (VFlow <$> (from_flow_stats <$> body (content_message event)))]]>
          (flows st)) st).
Proof.
  intros Hty Hcur. unfold FlowManager.handle_flow_stats_reply.
  rewrite decide_True by done. rewrite get_flows_map.
  unfold bind, FlowManager.flows_getitem, FlowManager.flows_setitem.
  rewrite Hcur. simpl. rewrite lookup_insert_eq. simpl.
  unfold with_flows. simpl. by rewrite insert_insert_eq.
Qed.

(** C1, as amended: for every dpid D whose entry in the store is a list and
    every flow-statistics reply for D, the handler succeeds and the entry for
    D becomes the previous entry followed by one more element, the decoded
    flow sequence; the previously cached elements are kept, and no other part
    of the state changes. *)
Theorem handle_flow_stats_reply_appends event st (prior : list value) :
  body_type (content_message event) = OFPST_FLOW →
  flows st !! content_switch event = Some (VList prior) →
  FlowManager.handle_flow_stats_reply event st
  = (Ok tt,
     with_flows
       (<[content_switch event :=
            VList (prior ++
                   [VList (VFlow <$> (from_flow_stats <$> body (content_message event)))])]>
          (flows st)) st).
Proof.
  intros Hty Hcur. unfold FlowManager.handle_flow_stats_reply.
  rewrite decide_True by done. rewrite get_flows_map.
  unfold bind, FlowManager.flows_getitem, FlowManager.flows_setitem.
  rewrite Hcur. simpl. by rewrite Hcur.
Qed.

Lemma handle_flow_stats_reply_appends_witness :
  FlowManager.handle_flow_stats_reply reply_f1_f2 st_polled
  = (Ok tt,
     with_flows
       (<["D1" := VList [VFlow f7; VFlow f1; VList [VFlow f1; VFlow f2]]]> (flows st_polled))
       st_polled).
Proof.
  apply (handle_flow_stats_reply_appends reply_f1_f2 st_polled [VFlow f7; VFlow f1]).
  - reflexivity.
  - vm_compute. reflexivity.
Defined.

(** The claim C1 fails twice.  The reply [reply_f1_f2] decodes to [f1; f2].
    On a store without an entry for D1 (the first reply) the handler raises
    KeyError and records nothing.  On a store whose entry for D1 is
    [f7; f1] the entry becomes [f7; f1; [f1; f2]], which is not [f1; f2]. *)
Lemma handle_flow_stats_reply_not_replace :
  FlowManager._get_flows (body (content_message reply_f1_f2)) = [f1; f2] ∧
  flows st_two_switches !! "D1" = None ∧
  FlowManager.handle_flow_stats_reply reply_f1_f2 st_two_switches
  = (Raise KeyError, st_two_switches) ∧
  flows st_polled !! "D1" = Some (VList [VFlow f7; VFlow f1]) ∧
  flows (FlowManager.handle_flow_stats_reply reply_f1_f2 st_polled).2 !! "D1"
  = Some (VList [VFlow f7; VFlow f1; VList [VFlow f1; VFlow f2]]) ∧
  flows (FlowManager.handle_flow_stats_reply reply_f1_f2 st_polled).2 !! "D1"
  ≠ Some (VList [VFlow f1; VFlow f2]).
Proof.
  split_and!; try (vm_compute; reflexivity).
  vm_compute. discriminate.
Qed.

(** C9: a statistics reply whose body type is not OFPST_FLOW is ignored: the
    handler returns normally and the whole state, the store included, is
    unchanged. *)
Theorem handle_flow_stats_reply_ignores_other event st :
  body_type (content_message event) ≠ OFPST_FLOW →
  FlowManager.handle_flow_stats_reply event st = (Ok tt, st).
Proof.
  intros Hty. unfold FlowManager.handle_flow_stats_reply.
  by rewrite decide_False.
Qed.

Lemma handle_flow_stats_reply_ignores_other_witness :
  FlowManager.handle_flow_stats_reply reply_port st_polled = (Ok tt, st_polled).
Proof.
  apply (handle_flow_stats_reply_ignores_other reply_port st_polled).
  simpl. discriminate.
Defined.

(** ** FlowManager.clear_flows and FlowManager.delete_flow *)

(** Neither method ever enqueues a message: the loop variable is a key of the
    store, which has neither [as_flow_mod] nor [id]. *)
Lemma clear_flows_state d st : (FlowManager.clear_flows d st).2 = st.
Proof.
  unfold FlowManager.clear_flows, bind, get_switch_by_dpid, FlowManager.flows_iter.
  destruct (switches st !! d); [|done].
  by destruct (dict_keys (flows st)).
Qed.

Lemma delete_flow_state flow_id d st : (FlowManager.delete_flow flow_id d st).2 = st.
Proof.
  unfold FlowManager.delete_flow, bind, get_switch_by_dpid, FlowManager.flows_iter.
  destruct (switches st !! d); [|done].
  by destruct (dict_keys (flows st)).
Qed.

Lemma clear_flows_nonempty d sw st :
  switches st !! d = Some sw → flows st ≠ ∅ →
  FlowManager.clear_flows d st = (Raise AttributeError, st).
Proof.
  intros Hsw Hne.
  unfold FlowManager.clear_flows, bind, get_switch_by_dpid, FlowManager.flows_iter.
  rewrite Hsw. unfold dict_keys.
  destruct (map_to_list (flows st)) as [|[k v] l] eqn:Hl; [|done].
  by apply map_to_list_empty_iff in Hl.
Qed.

(** C2: with D1 known to the controller and the two flows [f7; f1] cached
    for D1, [clear_flows] raises AttributeError and enqueues no DELETE
    command, where the claim asks for two. *)
Theorem clear_flows_cached_raises :
  FlowManager.clear_flows "D1" st_polled = (Raise AttributeError, st_polled) ∧
  msg_out (FlowManager.clear_flows "D1" st_polled).2 = [].
Proof. split; vm_compute; reflexivity. Qed.

(** C3: with D1 known to the controller and flow F7 cached for D1,
    [delete_flow] raises AttributeError and enqueues no DELETE command, where
    the claim asks for one. *)
Theorem delete_flow_cached_raises :
  id f7 = "F7" ∧
  flows st_polled !! "D1" = Some (VList [VFlow f7; VFlow f1]) ∧
  FlowManager.delete_flow "F7" "D1" st_polled = (Raise AttributeError, st_polled) ∧
  msg_out (FlowManager.delete_flow "F7" "D1" st_polled).2 = [].
Proof. split_and!; vm_compute; reflexivity. Qed.

(** ** FlowManager.install_new_flow *)

Lemma install_new_flow_known flow d sw st :
  switches st !! d = Some sw →
  FlowManager.install_new_flow flow d st
  = (Ok tt,
     with_msg_out
       (msg_out st ++ [FlowManager.flow_mod_event sw (as_flow_mod flow OFPFC_ADD)]) st).
Proof.
  intros Hsw. unfold FlowManager.install_new_flow.
  by rewrite (bind_ok _ _ _ _ _ (get_switch_known _ _ _ Hsw)).
Qed.

(** C4: [install_new_flow] leaves the store as it was, whether the switch
    resolves or not; a read of the entry for the dpid gives after the call
    what it gave before. *)
Theorem install_new_flow_keeps_store flow d st :
  flows (FlowManager.install_new_flow flow d st).2 = flows st ∧
  (FlowManager.flows_getitem d (FlowManager.install_new_flow flow d st).2).1
  = (FlowManager.flows_getitem d st).1.
Proof.
  assert (H : flows (FlowManager.install_new_flow flow d st).2 = flows st).
  { unfold FlowManager.install_new_flow, bind, get_switch_by_dpid.
    by destruct (switches st !! d). }
  split; [done|]. unfold FlowManager.flows_getitem. rewrite H.
  by destruct (flows st !! d).
Qed.

(** ** FlowManager.dump_flows *)

Lemma dump_flows_known d sw st :
  switches st !! d = Some sw →
  FlowManager.dump_flows d st
  = (Ok tt, with_msg_out (msg_out st ++ [flow_stats_request sw]) st).
Proof.
  intros Hsw. unfold FlowManager.dump_flows.
  by rewrite (bind_ok _ _ _ _ _ (get_switch_known _ _ _ Hsw)).
Qed.

(** C5: for a dpid that resolves to a switch, [dump_flows] enqueues exactly
    one statistics request, of type OFPST_FLOW and with the empty match, and
    changes nothing else; n calls in a row enqueue n such requests. *)
Theorem dump_flows_emits_one_request d sw st :
  switches st !! d = Some sw →
  FlowManager.dump_flows d st
  = (Ok tt, with_msg_out (msg_out st ++ [flow_stats_request sw]) st) ∧
  ∀ n, call_times n (FlowManager.dump_flows d) st
       = (Ok tt, with_msg_out (msg_out st ++ replicate n (flow_stats_request sw)) st).
Proof.
  intros Hsw. split; [by apply dump_flows_known|].
  intros n. revert st Hsw. induction n as [|n IH]; intros st Hsw; simpl.
  - by rewrite app_nil_r, with_msg_out_id.
  - rewrite (bind_ok _ _ _ tt _ (dump_flows_known d sw st Hsw)).
    rewrite IH by done. simpl. by rewrite <- app_assoc.
Qed.

Lemma dump_flows_emits_one_request_witness :
  FlowManager.dump_flows "D2" st_polled
  = (Ok tt, with_msg_out [flow_stats_request sw2] st_polled) ∧
  call_times 3 (FlowManager.dump_flows "D2") st_polled
  = (Ok tt, with_msg_out (replicate 3 (flow_stats_request sw2)) st_polled).
Proof.
  assert (Hsw : switches st_polled !! "D2" = Some sw2) by (vm_compute; reflexivity).
  destruct (dump_flows_emits_one_request "D2" sw2 st_polled Hsw) as [H1 Hn].
  split; [exact H1 | exact (Hn 3)].
Defined.

(** C8: for a dpid that does not resolve, [dump_flows] raises
    UnknownSwitchError at the lookup, before any event is built: the outbound
    buffer, and the rest of the state, are unchanged. *)
Theorem dump_flows_unknown_switch d st :
  switches st !! d = None →
  FlowManager.dump_flows d st = (Raise UnknownSwitchError, st).
Proof.
  intros Hsw. unfold FlowManager.dump_flows.
  by rewrite (bind_raise _ _ _ _ _ (get_switch_unknown _ _ Hsw)).
Qed.

Lemma dump_flows_unknown_switch_witness :
  FlowManager.dump_flows "D9" st_polled = (Raise UnknownSwitchError, st_polled).
Proof.
  apply (dump_flows_unknown_switch "D9" st_polled).
  vm_compute. reflexivity.
Defined.

(** ** Main: the poll cycle and the fan-out operations *)

(** One poll cycle enqueues one flow-statistics request per switch of the
    controller's table. *)
Lemma execute_polls_each_switch st :
  Main.execute st
  = (Ok tt,
     with_msg_out
       (msg_out st ++ (flow_stats_request ∘ snd <$> map_to_list (switches st))) st).
Proof.
  unfold Main.execute. unfold bind at 1. simpl.
  apply (for_in_emit flow_stats_request FlowManager.dump_flows).
  - intros d sw st'. apply dump_flows_known.
  - apply switches_resolve.
Qed.

(** C6: when the request body parses to a flow and no dpid is designated,
    [insert_flow] succeeds and enqueues, for each switch of the controller's
    table in the order of the iteration, one ADD command for that flow
    addressed to that switch: as many commands as there are switches.  The
    store is unchanged. *)
Theorem insert_flow_fan_out {Json} (from_json : Json → option Flow) json_content flow st :
  from_json json_content = Some flow →
  let emitted :=
    (λ p : dpid * Switch,
       FlowManager.flow_mod_event p.2 (as_flow_mod flow OFPFC_ADD))
    <$> map_to_list (switches st) in
  Main.insert_flow from_json json_content None st
  = (Ok tt, with_msg_out (msg_out st ++ emitted) st) ∧
  length emitted = size (switches st) ∧
  Forall (λ ev, ∃ m, message ev = MsgFlowMod m ∧ command m = OFPFC_ADD) emitted.
Proof.
  intros Hjson emitted. split_and!.
  - unfold Main.insert_flow, Main.Flow_from_json. rewrite Hjson.
    unfold bind at 1. simpl. unfold bind at 1. simpl.
    apply (for_in_emit
             (λ sw, FlowManager.flow_mod_event sw (as_flow_mod flow OFPFC_ADD))
             (FlowManager.install_new_flow flow)).
    + intros d sw st'. apply install_new_flow_known.
    + apply switches_resolve.
  - unfold emitted. by rewrite length_fmap, length_map_to_list.
  - unfold emitted. apply Forall_fmap, Forall_forall. intros [d sw] _. simpl. eauto.
Qed.

Lemma insert_flow_fan_out_witness :
  Main.insert_flow (λ f : Flow, Some f) f1 None st_polled
  = (Ok tt,
     with_msg_out
       ((λ p : dpid * Switch,
           FlowManager.flow_mod_event p.2 (as_flow_mod f1 OFPFC_ADD))
        <$> map_to_list (switches st_polled)) st_polled) ∧
  size (switches st_polled) = 2.
Proof.
  split.
  - apply (insert_flow_fan_out (λ f : Flow, Some f) f1 f1 st_polled). reflexivity.
  - vm_compute. reflexivity.
Defined.

Lemma fan_out_unfold op st :
  fan_out op st = for_in (dict_keys (switches st)) (per_switch op) st.
Proof. by destruct op. Qed.

(** C7, as amended: in the fan-out of clear and of delete over the
    controller's switches, when the per-switch call raises on a switch,
    after the calls for the switches before it returned, the fan-out raises
    that same exception with the state that call left: the exception is not
    caught, and no call is made for the switches after it. *)
Theorem fan_out_stops_at_failure op st pre d rest st1 e st2 :
  dict_keys (switches st) = pre ++ d :: rest →
  for_in pre (per_switch op) st = (Ok tt, st1) →
  per_switch op d st1 = (Raise e, st2) →
  fan_out op st = (Raise e, st2).
Proof.
  intros Hkeys Hpre Hd. rewrite fan_out_unfold, Hkeys.
  by apply for_in_raise with st1.
Qed.

Lemma fan_out_stops_at_failure_witness :
  fan_out ClearOp st_polled = (Raise AttributeError, st_polled).
Proof.
  apply (fan_out_stops_at_failure ClearOp st_polled [] "D1" ["D2"]
           st_polled AttributeError st_polled).
  - vm_compute. reflexivity.
  - reflexivity.
  - vm_compute. reflexivity.
Defined.

(** The claim C7 fails: with two switches known and flows cached for D1,
    the fan-out of clear and the fan-out of delete do not report per switch;
    they raise the AttributeError of the first per-switch call. *)
Lemma fan_out_propagates_error :
  dict_keys (switches st_polled) = ["D1"; "D2"] ∧
  Main.clear_flows None st_polled = (Raise AttributeError, st_polled) ∧
  Main.delete_flow "F7" None st_polled = (Raise AttributeError, st_polled).
Proof. split_and!; vm_compute; reflexivity. Qed.

(** ** Main.retrieve_flows *)

Lemma retrieve_loop (l : list (dpid * value)) st acc :
  Forall (λ p, flows st !! p.1 = Some p.2) l →
  for_acc l.*1 acc
    (λ flows switch_dpid,
       v <- FlowManager.flows_getitem switch_dpid ;; ret (flows ++ [v])) st
  = (Ok (acc ++ l.*2), st).
Proof.
  revert acc. induction l as [|[d v] l IH]; intros acc Hl; simpl.
  - by rewrite app_nil_r.
  - apply Forall_cons in Hl as [Hd Hl]. simpl in Hd.
    unfold bind at 1. unfold bind at 1. unfold FlowManager.flows_getitem at 1.
    rewrite Hd. simpl. rewrite IH by done. by rewrite <- app_assoc.
Qed.

(** C10: for a dpid without an entry in the store, [retrieve_flows(dpid)]
    raises KeyError instead of returning an empty list, while
    [retrieve_flows()] succeeds and returns the entries of the store, one per
    dpid that has one; neither changes the state. *)
Theorem retrieve_flows_absent st d :
  flows st !! d = None →
  Main.retrieve_flows (Some d) st = (Raise KeyError, st) ∧
  Main.retrieve_flows None st = (Ok (map_to_list (flows st)).*2, st) ∧
  length (map_to_list (flows st)).*2 = size (flows st).
Proof.
  intros Hd. split_and!.
  - unfold Main.retrieve_flows, bind, FlowManager.flows_getitem. by rewrite Hd.
  - unfold Main.retrieve_flows. unfold bind at 1. simpl.
    apply (retrieve_loop (map_to_list (flows st)) st []).
    apply Forall_forall. intros [k v]. apply elem_of_map_to_list.
  - by rewrite length_fmap, length_map_to_list.
Qed.

Lemma retrieve_flows_absent_witness :
  Main.retrieve_flows (Some "D2") st_polled = (Raise KeyError, st_polled) ∧
  Main.retrieve_flows None st_polled = (Ok [VList [VFlow f7; VFlow f1]], st_polled).
Proof.
  destruct (retrieve_flows_absent st_polled "D2") as (H1 & H2 & _).
  - vm_compute. reflexivity.
  - split; [exact H1 | exact H2].
Defined.

(** * Further properties of the code *)

(** ** FlowManager._get_flows *)

(** X1: [_get_flows] decodes every record of the body once and in order: the
    result is the image of the body under [Flow.from_flow_stats], it has the
    length of the body, and the decoding of a concatenation is the
    concatenation of the decodings. *)
Theorem get_flows_in_order (flow_stats more : list FlowStats) :
  FlowManager._get_flows flow_stats = from_flow_stats <$> flow_stats ∧
  length (FlowManager._get_flows flow_stats) = length flow_stats ∧
  FlowManager._get_flows (flow_stats ++ more)
  = FlowManager._get_flows flow_stats ++ FlowManager._get_flows more.
Proof.
  rewrite !get_flows_map. split_and!; [done | apply length_fmap | apply fmap_app].
Qed.

(** ** FlowManager.handle_flow_stats_reply: the entry of the switch *)

Lemma handle_reply_missing event st :
  body_type (content_message event) = OFPST_FLOW →
  flows st !! content_switch event = None →
  FlowManager.handle_flow_stats_reply event st = (Raise KeyError, st).
Proof.
  intros Hty Hcur. unfold FlowManager.handle_flow_stats_reply.
  rewrite decide_True by done.
  unfold bind, FlowManager.flows_getitem. by rewrite Hcur.
Qed.

Lemma handle_reply_list event st prior :
  body_type (content_message event) = OFPST_FLOW →
  flows st !! content_switch event = Some (VList prior) →
  FlowManager.handle_flow_stats_reply event st
  = (Ok tt,
     with_flows
       (<[content_switch event := VList (prior ++ [decoded_entry event])]> (flows st))
       st).
Proof.
  intros Hty Hcur. unfold FlowManager.handle_flow_stats_reply, decoded_entry.
  rewrite decide_True by done.
  unfold bind, FlowManager.flows_getitem, FlowManager.flows_setitem.
  rewrite Hcur. simpl. by rewrite Hcur.
Qed.

Lemma handle_reply_other_value event st v :
  body_type (content_message event) = OFPST_FLOW →
  flows st !! content_switch event = Some v →
  (∀ l, v ≠ VList l) → v ≠ VNone →
  FlowManager.handle_flow_stats_reply event st = (Raise AttributeError, st).
Proof.
  intros Hty Hcur Hl Hn. unfold FlowManager.handle_flow_stats_reply.
  rewrite decide_True by done.
  unfold bind, FlowManager.flows_getitem.
  rewrite Hcur. destruct v as [| | |l]; simpl; try by rewrite Hcur.
  - done.
  - by destruct (Hl l).
Qed.

(** X2: a flow-statistics reply for a switch that has no entry in the store
    raises KeyError at the read of [self.flows[switch_dpid]]; no entry is
    created and the state is unchanged. *)
Theorem handle_flow_stats_reply_missing_key event st :
  body_type (content_message event) = OFPST_FLOW →
  flows st !! content_switch event = None →
  FlowManager.handle_flow_stats_reply event st = (Raise KeyError, st) ∧
  flows (FlowManager.handle_flow_stats_reply event st).2 !! content_switch event = None.
Proof.
  intros Hty Hcur. rewrite (handle_reply_missing event st Hty Hcur). done.
Qed.

Lemma handle_flow_stats_reply_missing_key_witness :
  FlowManager.handle_flow_stats_reply reply_f2_d2 st_polled
  = (Raise KeyError, st_polled) ∧
  flows (FlowManager.handle_flow_stats_reply reply_f2_d2 st_polled).2 !! "D2" = None.
Proof.
  apply (handle_flow_stats_reply_missing_key reply_f2_d2 st_polled).
  - reflexivity.
  - vm_compute. reflexivity.
Defined.

(** X3: when the entry of the switch is [None], a flow-statistics reply
    replaces it by a list whose only element is the decoded list of the
    reply; the handler returns normally and changes nothing else. *)
Theorem handle_flow_stats_reply_none_entry event st :
  body_type (content_message event) = OFPST_FLOW →
  flows st !! content_switch event = Some VNone →
  FlowManager.handle_flow_stats_reply event st
  = (Ok tt,
     with_flows (<[content_switch event := VList [decoded_entry event]]> (flows st)) st).
Proof.
  intros Hty Hcur. rewrite (handle_flow_stats_reply_none event st Hty Hcur).
  unfold decoded_entry. by rewrite get_flows_map.
Qed.

Lemma handle_flow_stats_reply_none_entry_witness :
  FlowManager.handle_flow_stats_reply reply_f2_d2 st_none_entry
  = (Ok tt,
     with_flows (<["D2" := VList [VList [VFlow f2]]]> (flows st_none_entry))
       st_none_entry).
Proof.
  apply (handle_flow_stats_reply_none_entry reply_f2_d2 st_none_entry).
  - reflexivity.
  - vm_compute. reflexivity.
Defined.

Lemma handle_reply_frame event st :
  let st' := (FlowManager.handle_flow_stats_reply event st).2 in
  msg_out st' = msg_out st ∧
  switches st' = switches st ∧
  dom (flows st') = dom (flows st) ∧
  ∀ d, d ≠ content_switch event → flows st' !! d = flows st !! d.
Proof.
  destruct (decide (body_type (content_message event) = OFPST_FLOW)) as [Hty|Hty].
  - destruct (flows st !! content_switch event) as [v|] eqn:Hcur.
    + destruct v as [|s|f|l].
      * rewrite (handle_flow_stats_reply_none event st Hty Hcur). simpl.
        split_and!; try done.
        -- apply dom_insert_lookup_L. by rewrite Hcur.
        -- intros d Hd. by rewrite lookup_insert_ne.
      * by rewrite (handle_reply_other_value event st _ Hty Hcur).
      * by rewrite (handle_reply_other_value event st _ Hty Hcur).
      * rewrite (handle_reply_list event st l Hty Hcur). simpl.
        split_and!; try done.
        -- apply dom_insert_lookup_L. by rewrite Hcur.
        -- intros d Hd. by rewrite lookup_insert_ne.
    + by rewrite (handle_reply_missing event st Hty Hcur).
  - unfold FlowManager.handle_flow_stats_reply. by rewrite decide_False.
Qed.

(** X4: whatever the event and whatever the handler's outcome, the handler
    enqueues nothing, leaves the switch table alone, keeps the set of keys of
    the store, and does not touch the entry of any other switch. *)
Theorem handle_flow_stats_reply_frame event st :
  let st' := (FlowManager.handle_flow_stats_reply event st).2 in
  msg_out st' = msg_out st ∧
  switches st' = switches st ∧
  dom (flows st') = dom (flows st) ∧
  ∀ d, d ≠ content_switch event → flows st' !! d = flows st !! d.
Proof. apply handle_reply_frame. Qed.

(** X5: flow-statistics replies for one switch accumulate: after a sequence
    of replies for a switch whose entry is a list, the entry is that list
    followed by one element per reply, in the order of arrival; no reply
    removes or replaces what an earlier one recorded. *)
Theorem handle_flow_stats_reply_accumulates d (events : list StatsReplyEvent) st prior :
  Forall (λ ev, body_type (content_message ev) = OFPST_FLOW ∧ content_switch ev = d)
         events →
  flows st !! d = Some (VList prior) →
  for_in events FlowManager.handle_flow_stats_reply st
  = (Ok tt,
     with_flows (<[d := VList (prior ++ (decoded_entry <$> events))]> (flows st)) st).
Proof.
  intros Hev. revert st prior.
  induction Hev as [|ev events [Hty Hd] _ IH]; intros st prior Hcur; simpl.
  - rewrite app_nil_r, insert_id by done. by destruct st.
  - subst d. rewrite (bind_ok _ _ _ tt _ (handle_reply_list ev st prior Hty Hcur)).
    rewrite (IH _ (prior ++ [decoded_entry ev])).
    + unfold with_flows. simpl. by rewrite insert_insert_eq, <- app_assoc.
    + simpl. by rewrite lookup_insert_eq.
Qed.

Lemma handle_flow_stats_reply_accumulates_witness :
  for_in [reply_f1_f2; reply_f7] FlowManager.handle_flow_stats_reply st_polled
  = (Ok tt,
     with_flows
       (<["D1" := VList [VFlow f7; VFlow f1;
                         VList [VFlow f1; VFlow f2]; VList [VFlow f7]]]>
          (flows st_polled)) st_polled).
Proof.
  apply (handle_flow_stats_reply_accumulates "D1" [reply_f1_f2; reply_f7] st_polled
           [VFlow f7; VFlow f1]).
  - repeat constructor.
  - vm_compute. reflexivity.
Defined.

(** X6: what the handler records is what the enumeration returns: after a
    flow-statistics reply for a switch whose entry is the list [prior],
    [retrieve_flows(dpid)] returns a one-element list holding [prior]
    followed by the decoded list of the reply. *)
Theorem retrieve_after_reply event st prior :
  body_type (content_message event) = OFPST_FLOW →
  flows st !! content_switch event = Some (VList prior) →
  (FlowManager.handle_flow_stats_reply event ;;;
   Main.retrieve_flows (Some (content_switch event))) st
  = (Ok [VList (prior ++ [decoded_entry event])],
     (FlowManager.handle_flow_stats_reply event st).2).
Proof.
  intros Hty Hcur.
  rewrite (bind_ok _ _ _ tt _ (handle_reply_list event st prior Hty Hcur)).
  rewrite (handle_reply_list event st prior Hty Hcur).
  unfold Main.retrieve_flows, bind, FlowManager.flows_getitem. simpl.
  by rewrite lookup_insert_eq.
Qed.

Lemma retrieve_after_reply_witness :
  (FlowManager.handle_flow_stats_reply reply_f7 ;;;
   Main.retrieve_flows (Some "D1")) st_polled
  = (Ok [VList [VFlow f7; VFlow f1; VList [VFlow f7]]],
     (FlowManager.handle_flow_stats_reply reply_f7 st_polled).2).
Proof.
  apply (retrieve_after_reply reply_f7 st_polled [VFlow f7; VFlow f1]).
  - reflexivity.
  - vm_compute. reflexivity.
Defined.

(** ** FlowManager.clear_flows and FlowManager.delete_flow: every outcome *)

Lemma clear_flows_outcome d st :
  FlowManager.clear_flows d st
  = (match switches st !! d with
     | None => Raise UnknownSwitchError
     | Some _ => match size (flows st) with
                 | O => Ok tt
                 | S _ => Raise AttributeError
                 end
     end, st).
Proof.
  unfold FlowManager.clear_flows, bind, get_switch_by_dpid, FlowManager.flows_iter.
  destruct (switches st !! d); [|done].
  rewrite <- (length_map_to_list (flows st)). unfold dict_keys.
  by destruct (map_to_list (flows st)) as [|[k v] l].
Qed.

Lemma delete_flow_outcome flow_id d st :
  FlowManager.delete_flow flow_id d st
  = (match switches st !! d with
     | None => Raise UnknownSwitchError
     | Some _ => match size (flows st) with
                 | O => Ok tt
                 | S _ => Raise AttributeError
                 end
     end, st).
Proof.
  unfold FlowManager.delete_flow, bind, get_switch_by_dpid, FlowManager.flows_iter.
  destruct (switches st !! d); [|done].
  rewrite <- (length_map_to_list (flows st)). unfold dict_keys.
  by destruct (map_to_list (flows st)) as [|[k v] l].
Qed.

(** X7: [clear_flows] never enqueues a message and never changes the state.
    It raises UnknownSwitchError when the dpid does not resolve, whatever
    the store holds; otherwise it returns normally when the store has no
    key, and raises AttributeError when the store has one, because the loop
    runs over the keys of the store. *)
Theorem clear_flows_every_outcome d st :
  FlowManager.clear_flows d st
  = (match switches st !! d with
     | None => Raise UnknownSwitchError
     | Some _ => match size (flows st) with
                 | O => Ok tt
                 | S _ => Raise AttributeError
                 end
     end, st).
Proof. apply clear_flows_outcome. Qed.

(** X8: [delete_flow] has the outcome of [clear_flows] for every flow id,
    dpid and state: the flow id is compared with nothing, since reading
    [id] on the first key of the store already raises; no message is
    enqueued and the state is unchanged. *)
Theorem delete_flow_every_outcome flow_id d st :
  FlowManager.delete_flow flow_id d st
  = (match switches st !! d with
     | None => Raise UnknownSwitchError
     | Some _ => match size (flows st) with
                 | O => Ok tt
                 | S _ => Raise AttributeError
                 end
     end, st) ∧
  FlowManager.delete_flow flow_id d st = FlowManager.clear_flows d st.
Proof. by rewrite delete_flow_outcome, clear_flows_outcome. Qed.

(** ** FlowManager.install_new_flow: every outcome *)

(** X9: [install_new_flow] enqueues at most one message.  For a dpid that
    resolves it appends one ADD flow-mod for the flow, addressed to the
    connection of that switch, behind the messages already queued; for a
    dpid that does not resolve it raises UnknownSwitchError and leaves the
    state unchanged. *)
Theorem install_new_flow_every_outcome flow d st :
  FlowManager.install_new_flow flow d st
  = match switches st !! d with
    | Some sw =>
        (Ok tt,
         with_msg_out
           (msg_out st ++
            [{| name := "kytos/of.flow-manager.messages.out.ofpt_flow_mod";
                destination := connection sw;
                message := MsgFlowMod (as_flow_mod flow OFPFC_ADD) |}]) st)
    | None => (Raise UnknownSwitchError, st)
    end.
Proof.
  destruct (switches st !! d) as [sw|] eqn:Hsw.
  - by apply install_new_flow_known.
  - unfold FlowManager.install_new_flow.
    by rewrite (bind_raise _ _ _ _ _ (get_switch_unknown _ _ Hsw)).
Qed.

(** ** Main.execute *)

(** X10: one poll cycle never raises: it enqueues one flow-table request per
    switch of the controller's table, addressed to that switch's connection,
    in the order of the iteration, and changes neither the store nor the
    table.  With no switch it enqueues nothing. *)
Theorem execute_poll_cycle st :
  let requests := (λ p : dpid * Switch, flow_stats_request p.2)
                  <$> map_to_list (switches st) in
  Main.execute st = (Ok tt, with_msg_out (msg_out st ++ requests) st) ∧
  length requests = size (switches st) ∧
  (switches st = ∅ → Main.execute st = (Ok tt, st)).
Proof.
  intros requests. split_and!.
  - apply execute_polls_each_switch.
  - unfold requests. by rewrite length_fmap, length_map_to_list.
  - intros Hsw. rewrite execute_polls_each_switch, Hsw, map_to_list_empty. simpl.
    by rewrite app_nil_r, with_msg_out_id.
Qed.

(** ** Main.clear_flows and Main.delete_flow over all switches *)

Lemma per_switch_outcome op d st :
  per_switch op d st
  = (match switches st !! d with
     | None => Raise UnknownSwitchError
     | Some _ => match size (flows st) with
                 | O => Ok tt
                 | S _ => Raise AttributeError
                 end
     end, st).
Proof. destruct op; [apply clear_flows_outcome | apply delete_flow_outcome]. Qed.

Lemma fan_out_empty_store op st (l : list (dpid * Switch)) :
  size (flows st) = 0 →
  Forall (λ p, switches st !! p.1 = Some p.2) l →
  for_in l.*1 (per_switch op) st = (Ok tt, st).
Proof.
  intros Hsz Hl. induction Hl as [|[d sw] l Hd _ IH]; simpl; [done|].
  simpl in Hd. unfold bind. by rewrite per_switch_outcome, Hd, Hsz.
Qed.

(** X11: the fan-out of clear and of delete over all switches never changes
    the state.  It returns normally when the controller knows no switch or
    the store has no key, and raises AttributeError otherwise. *)
Theorem fan_out_every_outcome op st :
  fan_out op st
  = (match size (switches st), size (flows st) with
     | O, _ | _, O => Ok tt
     | S _, S _ => Raise AttributeError
     end, st).
Proof.
  rewrite fan_out_unfold. unfold dict_keys.
  pose proof (switches_resolve st) as Hl.
  rewrite <- (length_map_to_list (switches st)).
  destruct (size (flows st)) as [|n] eqn:Hsz.
  - rewrite (fan_out_empty_store op st _ Hsz Hl).
    by destruct (length (map_to_list (switches st))).
  - destruct (map_to_list (switches st)) as [|[d sw] l]; simpl; [done|].
    apply Forall_cons in Hl as [Hd _]. simpl in Hd.
    unfold bind. by rewrite per_switch_outcome, Hd, Hsz.
Qed.

(** ** Invariants of the application *)

Lemma grows_refl st : grows st st.
Proof.
  split_and!; [done..|]. exists []. split; [by rewrite app_nil_r | constructor].
Qed.

Lemma grows_trans st1 st2 st3 : grows st1 st2 → grows st2 st3 → grows st1 st3.
Proof.
  intros (Hsw1 & Hd1 & new1 & Hq1 & Hn1) (Hsw2 & Hd2 & new2 & Hq2 & Hn2).
  split_and!; [congruence..|].
  exists (new1 ++ new2). split.
  - by rewrite Hq2, Hq1, <- app_assoc.
  - apply Forall_app. split; [done|].
    eapply Forall_impl; [exact Hn2|]. intros ev [Hk (d & sw & Hl & Hc)].
    split; [done|]. exists d, sw. by rewrite <- Hsw1.
Qed.

Lemma grows_emit sw d ev st :
  switches st !! d = Some sw → destination ev = connection sw →
  add_or_flow_request ev = true →
  grows st (with_msg_out (msg_out st ++ [ev]) st).
Proof.
  intros Hsw Hdest Hk. split_and!; [done..|].
  exists [ev]. split; [done|]. repeat constructor; [done|]. by exists d, sw.
Qed.

Lemma for_in_grows {A} (body : A → M unit) :
  (∀ x st, grows st (body x st).2) →
  ∀ xs st, grows st (for_in xs body st).2.
Proof.
  intros Hbody xs. induction xs as [|x xs IH]; intros st; simpl.
  - apply grows_refl.
  - unfold bind. specialize (Hbody x st).
    destruct (body x st) as [[[]|e] st1]; simpl in *; [|done].
    by eapply grows_trans.
Qed.

Lemma install_new_flow_grows flow d st :
  grows st (FlowManager.install_new_flow flow d st).2.
Proof.
  destruct (switches st !! d) as [sw|] eqn:Hsw.
  - rewrite (install_new_flow_known flow d sw st Hsw). simpl.
    by apply (grows_emit sw d).
  - unfold FlowManager.install_new_flow.
    rewrite (bind_raise _ _ _ _ _ (get_switch_unknown _ _ Hsw)). apply grows_refl.
Qed.

Lemma dump_flows_grows d st : grows st (FlowManager.dump_flows d st).2.
Proof.
  destruct (switches st !! d) as [sw|] eqn:Hsw.
  - rewrite (dump_flows_known d sw st Hsw). simpl. by apply (grows_emit sw d).
  - unfold FlowManager.dump_flows.
    rewrite (bind_raise _ _ _ _ _ (get_switch_unknown _ _ Hsw)). apply grows_refl.
Qed.

Lemma handle_flow_stats_reply_grows event st :
  grows st (FlowManager.handle_flow_stats_reply event st).2.
Proof.
  destruct (handle_reply_frame event st) as (Hq & Hsw & Hdom & _).
  split_and!; [done..|]. exists []. split; [by rewrite app_nil_r | constructor].
Qed.

Lemma retrieve_flows_state d st : (Main.retrieve_flows d st).2 = st.
Proof.
  destruct d as [d|]; unfold Main.retrieve_flows.
  - unfold bind, FlowManager.flows_getitem. by destruct (flows st !! d).
  - unfold bind at 1. simpl. unfold dict_keys.
    rewrite (retrieve_loop (map_to_list (flows st)) st []); [done|].
    apply Forall_forall. intros [k v]. apply elem_of_map_to_list.
Qed.

Lemma exec_grows {Json} (from_json : Json → option Flow) c st :
  grows st (exec from_json c st).
Proof.
  destruct c as [|d|j d|d|fid d|flow d|d|event]; simpl.
  - unfold Main.execute. unfold bind at 1. simpl.
    apply for_in_grows. intros. apply dump_flows_grows.
  - rewrite retrieve_flows_state. apply grows_refl.
  - unfold Main.insert_flow, Main.Flow_from_json.
    destruct (from_json j) as [flow|]; [|apply grows_refl].
    unfold bind at 1. simpl. destruct d as [d|].
    + apply install_new_flow_grows.
    + unfold bind at 1. simpl. apply for_in_grows. intros. apply install_new_flow_grows.
  - destruct d as [d|]; simpl.
    + rewrite clear_flows_state. apply grows_refl.
    + unfold bind at 1. simpl. apply for_in_grows.
      intros. rewrite clear_flows_state. apply grows_refl.
  - destruct d as [d|]; simpl.
    + rewrite delete_flow_state. apply grows_refl.
    + unfold bind at 1. simpl. apply for_in_grows.
      intros. rewrite delete_flow_state. apply grows_refl.
  - apply install_new_flow_grows.
  - apply dump_flows_grows.
  - apply handle_flow_stats_reply_grows.
Qed.

Lemma exec_all_grows {Json} (from_json : Json → option Flow) cs st :
  grows st (exec_all from_json cs st).
Proof.
  unfold exec_all. revert st. induction cs as [|c cs IH]; intros st; simpl.
  - apply grows_refl.
  - eapply grows_trans; [apply (exec_grows from_json c st) | apply IH].
Qed.

(** X12: no sequence of calls, returning or raising, adds a key to the store
    or removes one, and none changes the controller's switch table: the only
    write to [self.flows] is the one of the reply handler, which comes after
    a successful read of the same key. *)
Theorem store_keys_invariant {Json} (from_json : Json → option Flow) cs st :
  dom (flows (exec_all from_json cs st)) = dom (flows st) ∧
  switches (exec_all from_json cs st) = switches st.
Proof. by destruct (exec_all_grows from_json cs st) as (? & ? & _). Qed.

(** X13: over any sequence of calls the outbound queue is only extended at
    its tail: what was queued stays, in order, and every message added is an
    ADD flow-mod or a flow-table statistics request addressed to the
    connection of a switch of the controller's table.  No DELETE command is
    ever enqueued. *)
Theorem queue_only_grows {Json} (from_json : Json → option Flow) cs st :
  ∃ new,
    msg_out (exec_all from_json cs st) = msg_out st ++ new ∧
    Forall (λ ev, add_or_flow_request ev = true ∧ to_known_switch st ev) new ∧
    Forall (λ ev, ∀ m, message ev = MsgFlowMod m → command m ≠ OFPFC_DELETE) new.
Proof.
  destruct (exec_all_grows from_json cs st) as (_ & _ & new & Hq & Hnew).
  exists new. split_and!; [done..|].
  eapply Forall_impl; [exact Hnew|]. intros ev [Hk _] m Hm.
  unfold add_or_flow_request in Hk. rewrite Hm in Hk.
  apply bool_decide_eq_true in Hk. by rewrite Hk.
Qed.

(** X14: the store that [FlowManager.__init__] creates is never populated:
    after any sequence of calls on it the store is still empty, so
    [retrieve_flows()] returns the empty list and [retrieve_flows(dpid)]
    raises KeyError for every dpid. *)
Theorem store_never_populated {Json} (from_json : Json → option Flow) cs st0 :
  let st := exec_all from_json cs (FlowManager_init st0) in
  flows st = ∅ ∧
  Main.retrieve_flows None st = (Ok [], st) ∧
  ∀ d, Main.retrieve_flows (Some d) st = (Raise KeyError, st).
Proof.
  intros st.
  assert (Hempty : flows st = ∅).
  { apply dom_empty_iff_L.
    destruct (exec_all_grows from_json cs (FlowManager_init st0)) as (_ & Hdom & _).
    fold st in Hdom. rewrite Hdom. simpl. apply dom_empty_L. }
  split_and!; [done|..].
  - unfold Main.retrieve_flows, bind, Main.flows_keys, dict_keys.
    by rewrite Hempty, map_to_list_empty.
  - intros d. unfold Main.retrieve_flows, bind, FlowManager.flows_getitem.
    by rewrite Hempty, lookup_empty.
Qed.
